(** * DCAlytics: the trading decision engine of [main.py]

    A shallow embedding of the FastAPI module [main.py]: the pydantic
    models, the three static methods of [TradingEngine], the two module
    globals ([current_config], [portfolio_data]) and the endpoints that
    read and write them.

    Numbers are Python floats, i.e. IEEE 754 binary64 values, modelled by
    the executable specification [SpecFloat] of the standard library
    (round to nearest, ties to even).  Python departs from IEEE 754 in one
    place that matters here: a true division by zero raises
    [ZeroDivisionError] instead of returning an infinity or a NaN. *)

From Stdlib Require Import ZArith List String Bool Lia.
From Stdlib Require Import Floats.SpecFloat.
Import ListNotations.

Local Open Scope Z_scope.
Local Open Scope string_scope.

(** ** Python floats *)

Definition float : Type := spec_float.

Module Float64.

Definition prec : Z := 53.
Definition emax : Z := 1024.

(** The values of [spec_float] that are binary64 numbers. *)
Definition valid (x : float) : bool := valid_binary prec emax x.

(** Conversion of a Python int, as done by the mixed operations
    [float + int], [float - int] and [float / int]; exact whenever the
    integer has at most 53 significant bits. *)
Definition of_Z (z : Z) : float := binary_normalize prec emax z 0 false.

Definition add : float -> float -> float := SFadd prec emax.
Definition sub : float -> float -> float := SFsub prec emax.
Definition mul : float -> float -> float := SFmul prec emax.
(** IEEE division; Python's [/] is [truediv] below. *)
Definition div : float -> float -> float := SFdiv prec emax.
Definition abs : float -> float := SFabs.

Definition ltb : float -> float -> bool := SFltb.
Definition leb : float -> float -> bool := SFleb.
Definition gtb (x y : float) : bool := SFltb y x.

Definition is_zero (x : float) : bool :=
  match x with S754_zero _ => true | _ => false end.

Definition is_finite (x : float) : bool :=
  match x with S754_zero _ | S754_finite _ _ _ => true | _ => false end.

(** A decimal literal [n/d] with [n] and [d] exactly representable: the
    literal denotes the binary64 number nearest to the rational, which is
    what the correctly rounded quotient is. *)
Definition lit (n d : Z) : float := div (of_Z n) (of_Z d).

Definition eqb_struct (x y : float) : bool :=
  match x, y with
  | S754_zero a, S754_zero b => Bool.eqb a b
  | S754_infinity a, S754_infinity b => Bool.eqb a b
  | S754_nan, S754_nan => true
  | S754_finite a m e, S754_finite b n f =>
      Bool.eqb a b && Pos.eqb m n && Z.eqb e f
  | _, _ => false
  end.

End Float64.

(** ** Exceptions and results *)

Inductive exn : Type :=
| ZeroDivisionError.

Inductive result (A : Type) : Type :=
| Ok (a : A)
| Err (e : exn).

Arguments Ok {A} a.
Arguments Err {A} e.

Definition result_bind {A B : Type} (r : result A) (k : A -> result B)
  : result B :=
  match r with
  | Ok a => k a
  | Err e => Err e
  end.

(** Python's [x / y] on floats. *)
Definition truediv (x y : float) : result float :=
  if Float64.is_zero y then Err ZeroDivisionError else Ok (Float64.div x y).

(** ** Values held by the [Dict[str, Any]] records *)

(** The two numeric types met in the module: the [else 0] of
    [assess_risk] is an int, every other number is a float. *)
Inductive number : Type :=
| Int (z : Z)
| Float (f : float).

Definition as_float (n : number) : float :=
  match n with
  | Int z => Float64.of_Z z
  | Float f => f
  end.

Inductive value : Type :=
| VStr (s : string)
| VNum (n : number)
| VBool (b : bool).

(** A dict built by a literal: its items, in insertion order (the order
    Python keeps, and serialises). *)
Definition dict : Type := list (string * value).

Fixpoint dict_get (k : string) (d : dict) : option value :=
  match d with
  | [] => None
  | (k', v) :: d' => if String.eqb k k' then Some v else dict_get k d'
  end.

(** ** Data models *)

Record TradingConfig : Type := mkTradingConfig {
  symbol : string;
  dca_amount : float;
  dca_interval : Z;
  hedge_ratio : float;
  risk_limit : float;
  take_profit : float
}.

Definition default_config : TradingConfig :=
  {| symbol := "BTC/USD";
     dca_amount := Float64.of_Z 100;
     dca_interval := 24;
     hedge_ratio := Float64.lit 3 10;
     risk_limit := Float64.lit 1 10;
     take_profit := Float64.lit 15 100 |}.

Record TradeExecution : Type := mkTradeExecution {
  config : TradingConfig;
  simulate : bool
}.

Record Portfolio : Type := mkPortfolio {
  total_value : float;
  positions : list dict;
  pnl : float;
  trades : list dict
}.

(** ** Trading algorithm engine *)

Module TradingEngine.

(** [now] is the text of [datetime.now().isoformat()] at the call. *)
Definition calculate_dca_position
  (config : TradingConfig) (current_price : float) (now : string)
  : result dict :=
  result_bind (truediv (dca_amount config) current_price)
    (fun position_size =>
       Ok [ ("type", VStr "DCA_BUY");
            ("symbol", VStr (symbol config));
            ("size", VNum (Float position_size));
            ("price", VNum (Float current_price));
            ("timestamp", VStr now) ]).

Definition calculate_hedge
  (config : TradingConfig) (position_value : float) (now : string)
  : dict :=
  let hedge_size := Float64.mul position_value (hedge_ratio config) in
  [ ("type", VStr "HEDGE");
    ("symbol", VStr (symbol config ++ "_HEDGE"));
    ("size", VNum (Float hedge_size));
    ("timestamp", VStr now) ].

Definition assess_risk (portfolio : Portfolio) (config : TradingConfig)
  : result dict :=
  result_bind
    (if Float64.gtb (total_value portfolio) (Float64.of_Z 0)
     then result_bind
            (truediv (Float64.abs (pnl portfolio)) (total_value portfolio))
            (fun q => Ok (Float q))
     else Ok (Int 0))
    (fun risk_percentage =>
       Ok [ ("current_risk", VNum risk_percentage);
            ("risk_limit", VNum (Float (risk_limit config)));
            ("within_limits",
              VBool (Float64.leb (as_float risk_percentage)
                       (risk_limit config)));
            ("recommendation",
              VStr (if Float64.gtb (as_float risk_percentage)
                         (risk_limit config)
                    then "REDUCE_POSITION" else "CONTINUE")) ]).

End TradingEngine.

(** ** In-memory storage *)

(** The two module globals. *)
Record State : Type := mkState {
  current_config : TradingConfig;
  portfolio_data : Portfolio
}.

Definition initial_state : State :=
  {| current_config := default_config;
     portfolio_data :=
       {| total_value := Float64.of_Z 10000;
          positions := [];
          pnl := Float64.of_Z 0;
          trades := [] |} |}.

(** An endpoint either returns a response or raises; in both cases the
    globals are left as the last completed statement left them (Python
    rolls nothing back when an exception propagates). *)
Inductive outcome (A : Type) : Type :=
| Return (a : A) (s : State)
| Raise (e : exn) (s : State).

Arguments Return {A} a s.
Arguments Raise {A} e s.

Definition M (A : Type) : Type := State -> outcome A.

Definition ret {A : Type} (a : A) : M A := fun s => Return a s.

Definition bind {A B : Type} (m : M A) (k : A -> M B) : M B :=
  fun s =>
    match m s with
    | Return a s' => k a s'
    | Raise e s' => Raise e s'
    end.

Definition lift {A : Type} (r : result A) : M A :=
  fun s =>
    match r with
    | Ok a => Return a s
    | Err e => Raise e s
    end.

Definition get_state : M State := fun s => Return s s.

Definition final_state {A : Type} (o : outcome A) : State :=
  match o with
  | Return _ s => s
  | Raise _ s => s
  end.

Declare Scope py_scope.
Delimit Scope py_scope with py.
Notation "x <- m ;; k" := (bind m (fun x => k))
  (at level 61, m at next level, right associativity) : py_scope.
Notation "m ;; k" := (bind m (fun _ => k))
  (at level 61, right associativity) : py_scope.

(** Writes to the attributes of the global [portfolio_data]. *)
Definition with_portfolio (f : Portfolio -> Portfolio) : M unit :=
  fun s =>
    Return tt {| current_config := current_config s;
                 portfolio_data := f (portfolio_data s) |}.

Definition positions_append (d : dict) : M unit :=
  with_portfolio (fun p =>
    {| total_value := total_value p;
       positions := positions p ++ [d];
       pnl := pnl p;
       trades := trades p |}).

Definition trades_extend (ds : list dict) : M unit :=
  with_portfolio (fun p =>
    {| total_value := total_value p;
       positions := positions p;
       pnl := pnl p;
       trades := trades p ++ ds |}).

Definition set_pnl (x : float) : M unit :=
  with_portfolio (fun p =>
    {| total_value := total_value p;
       positions := positions p;
       pnl := x;
       trades := trades p |}).

(** ** API endpoints *)

(** What one call of [execute_trade] reads from the outside world: the
    value of [hash(str(datetime.now()))], an arbitrary Python int, and the
    two timestamps taken by the engine. *)
Record Clock : Type := mkClock {
  hash_now : Z;
  dca_now : string;
  hedge_now : string
}.

Record ExecutionResponse : Type := mkExecutionResponse {
  execution_result : string;
  response_trades : list dict;
  response_portfolio : Portfolio;
  risk_assessment : dict;
  response_current_price : float
}.

Definition get_config : M TradingConfig :=
  fun s => Return (current_config s) s.

Definition update_config (config : TradingConfig)
  : M (string * TradingConfig) :=
  fun s =>
    let s' := {| current_config := config;
                 portfolio_data := portfolio_data s |} in
    Return ("Configuration updated", current_config s') s'.

(** Line 109: [50000.0 + (hash(...) % 10000 - 5000)].  Python's [%] takes
    the sign of the divisor, as [Z.modulo] does. *)
Definition mock_price (h : Z) : float :=
  Float64.add (Float64.of_Z 50000) (Float64.of_Z (h mod 10000 - 5000)).

(** Lines 111 to 134: the cycle once [current_price] is known. *)
Definition execute_cycle
  (execution : TradeExecution) (current_price : float)
  (now_dca now_hedge : string) : M ExecutionResponse :=
  (dca_trade <- lift (TradingEngine.calculate_dca_position
                        (config execution) current_price now_dca) ;;
   let hedge_trade :=
     TradingEngine.calculate_hedge (config execution)
       (dca_amount (config execution)) now_hedge in
   positions_append dca_trade ;;
   trades_extend [dca_trade; hedge_trade] ;;
   price_change <- lift (truediv
                           (Float64.sub current_price (Float64.of_Z 50000))
                           (Float64.of_Z 50000)) ;;
   s <- get_state ;;
   set_pnl (Float64.mul
              (Float64.mul (total_value (portfolio_data s)) price_change)
              (Float64.lit 1 10)) ;;
   s <- get_state ;;
   risk <- lift (TradingEngine.assess_risk (portfolio_data s)
                   (config execution)) ;;
   s <- get_state ;;
   ret {| execution_result :=
            if simulate execution then "SUCCESS" else "EXECUTED";
          response_trades := [dca_trade; hedge_trade];
          response_portfolio := portfolio_data s;
          risk_assessment := risk;
          response_current_price := current_price |})%py.

Definition execute_trade (execution : TradeExecution) (clock : Clock)
  : M ExecutionResponse :=
  execute_cycle execution (mock_price (hash_now clock))
    (dca_now clock) (hedge_now clock).

Definition get_portfolio : M Portfolio :=
  fun s => Return (portfolio_data s) s.

Definition get_risk_analysis : M dict :=
  (s <- get_state ;;
   lift (TradingEngine.assess_risk (portfolio_data s) (current_config s)))%py.

(** ** Sessions: sequences of requests against the globals *)

Inductive request : Type :=
| GetConfig
| UpdateConfig (config : TradingConfig)
| ExecuteTrade (execution : TradeExecution) (clock : Clock)
| GetPortfolio
| GetRiskAnalysis.

Definition handle (r : request) (s : State) : State :=
  match r with
  | GetConfig => final_state (get_config s)
  | UpdateConfig c => final_state (update_config c s)
  | ExecuteTrade e k => final_state (execute_trade e k s)
  | GetPortfolio => final_state (get_portfolio s)
  | GetRiskAnalysis => final_state (get_risk_analysis s)
  end.

Definition run (rs : list request) (s : State) : State :=
  fold_left (fun s r => handle r s) rs s.

(** * Vocabulary of the statements *)

(** ** Exhaustive checks over an initial segment of the integers *)

Fixpoint all_below (n : nat) (P : Z -> bool) : bool :=
  match n with
  | O => true
  | S k => P (Z.of_nat k) && all_below k P
  end.

(** ** The mocked price, remainder by remainder *)

(** What is checked of the price built from the remainder [r] of the hash:
    the sum is exact (it is the float of the integer [45000 + r]), it lies
    in the interval from 45000 included to 55000 excluded, it is positive,
    and it is a binary64 number. *)
Definition price_of_remainder (r : Z) : float :=
  Float64.add (Float64.of_Z 50000) (Float64.of_Z (r - 5000)).

(** The invalid price of the error taxonomy: non-positive or non-finite.
    The module has no such test; the predicate only serves to state what
    happens at such a price. *)
Definition invalid_price (p : float) : bool :=
  Float64.leb p (Float64.of_Z 0) || negb (Float64.is_finite p).

Definition price_check (r : Z) : bool :=
  let p := price_of_remainder r in
  Float64.eqb_struct p (Float64.of_Z (45000 + r))
  && Float64.leb (Float64.of_Z 45000) p
  && Float64.ltb p (Float64.of_Z 55000)
  && Float64.gtb p (Float64.of_Z 0)
  && Float64.valid p
  && negb (invalid_price p).

(** ** The verdict and the committed state, in closed form *)

(** The local [risk_percentage] of [assess_risk]. *)
Definition risk_percentage (portfolio : Portfolio) : number :=
  if Float64.gtb (total_value portfolio) (Float64.of_Z 0)
  then Float (Float64.div (Float64.abs (pnl portfolio))
                (total_value portfolio))
  else Int 0.

Definition risk_verdict (risk : number) (limit : float) : dict :=
  [ ("current_risk", VNum risk);
    ("risk_limit", VNum (Float limit));
    ("within_limits", VBool (Float64.leb (as_float risk) limit));
    ("recommendation",
      VStr (if Float64.gtb (as_float risk) limit
            then "REDUCE_POSITION" else "CONTINUE")) ].

(** Line 122 and 123. *)
Definition pnl_at (value price : float) : float :=
  Float64.mul
    (Float64.mul value
       (Float64.div (Float64.sub price (Float64.of_Z 50000))
          (Float64.of_Z 50000)))
    (Float64.lit 1 10).

(** The globals after a cycle that went through. *)
Definition committed (s : State) (dca hedge : dict) (price : float) : State :=
  {| current_config := current_config s;
     portfolio_data :=
       {| total_value := total_value (portfolio_data s);
          positions := positions (portfolio_data s) ++ [dca];
          pnl := pnl_at (total_value (portfolio_data s)) price;
          trades := trades (portfolio_data s) ++ [dca; hedge] |} |}.

Definition cycle_response
  (execution : TradeExecution) (s' : State) (dca hedge : dict)
  (price : float) : ExecutionResponse :=
  {| execution_result :=
       if simulate execution then "SUCCESS" else "EXECUTED";
     response_trades := [dca; hedge];
     response_portfolio := portfolio_data s';
     risk_assessment :=
       risk_verdict (risk_percentage (portfolio_data s'))
         (risk_limit (config execution));
     response_current_price := price |}.

(** The globals with another value of [pnl]. *)
Definition with_pnl (s : State) (x : float) : State :=
  {| current_config := current_config s;
     portfolio_data :=
       {| total_value := total_value (portfolio_data s);
          positions := positions (portfolio_data s);
          pnl := x;
          trades := trades (portfolio_data s) |} |}.

(** ** Rejections and out-of-range configurations *)

(** A call that failed and left the globals as they were. *)
Definition rejected_without_mutation {A : Type} (o : outcome A) (s : State)
  : Prop :=
  exists e, o = Raise e s.



Definition oversized_hedge_config : TradingConfig :=
  {| symbol := "BTC/USD";
     dca_amount := Float64.of_Z (-100);
     dca_interval := 24;
     hedge_ratio := Float64.of_Z 2;
     risk_limit := Float64.lit 1 10;
     take_profit := Float64.lit 15 100 |}.

(** ** Sessions, summarised *)

(** The calls of [execute_trade] of a session, in order. *)
Fixpoint executions (rs : list request) : list (TradeExecution * Clock) :=
  match rs with
  | [] => []
  | ExecuteTrade e k :: rs' => (e, k) :: executions rs'
  | _ :: rs' => executions rs'
  end.

(** The configurations given to [update_config] in a session, in order. *)
Fixpoint updates (rs : list request) : list TradingConfig :=
  match rs with
  | [] => []
  | UpdateConfig c :: rs' => c :: updates rs'
  | _ :: rs' => updates rs'
  end.

(** The two intents of one call, as the engine builds them at line 112 and
    at line 115. *)
Definition dca_of (ek : TradeExecution * Clock) : dict :=
  match TradingEngine.calculate_dca_position (config (fst ek))
          (mock_price (hash_now (snd ek))) (dca_now (snd ek)) with
  | Ok d => d
  | Err _ => []
  end.

Definition hedge_of (ek : TradeExecution * Clock) : dict :=
  TradingEngine.calculate_hedge (config (fst ek))
    (dca_amount (config (fst ek))) (hedge_now (snd ek)).

Definition has_type (t : string) (d : dict) : bool :=
  match dict_get "type" d with
  | Some (VStr t') => String.eqb t t'
  | _ => false
  end.

(** ** One cycle on the seed portfolio, remainder by remainder *)

(** The integer that a float holds, when it holds one. *)
Definition float_to_Z (x : float) : option Z :=
  match x with
  | S754_zero _ => Some 0
  | S754_finite s m e =>
      let n := if s then Z.neg m else Z.pos m in
      if (0 <=? e)%Z then Some (n * 2 ^ e)
      else if (n mod 2 ^ (- e) =? 0)%Z then Some (n / 2 ^ (- e)) else None
  | _ => None
  end.

(** The constants of the cycle, computed once. *)
Definition f_0 : float := Eval vm_compute in Float64.of_Z 0.
Definition f_100 : float := Eval vm_compute in Float64.of_Z 100.
Definition f_10000 : float := Eval vm_compute in Float64.of_Z 10000.
Definition f_50000 : float := Eval vm_compute in Float64.of_Z 50000.
Definition f_tenth : float := Eval vm_compute in Float64.lit 1 10.
Definition f_hundredth : float := Eval vm_compute in Float64.lit 1 100.

(** What is checked of a cycle run on a portfolio worth 10000.0, for the
    remainder [r] of the hash: the price is the whole number [45000 + r];
    the P&L is at most 100 in magnitude and the risk it gives is at most
    0.01; the P&L is negative, zero or positive as the price is below, at
    or above 50000. *)
Definition cycle_check (r : Z) : bool :=
  let p := Float64.add f_50000 (Float64.of_Z (r - 5000)) in
  let x :=
    Float64.mul
      (Float64.mul f_10000 (Float64.div (Float64.sub p f_50000) f_50000))
      f_tenth in
  match float_to_Z p with
  | Some z => (z =? 45000 + r)%Z
  | None => false
  end
  && Float64.leb (Float64.abs x) f_100
  && Float64.leb (Float64.div (Float64.abs x) f_10000) f_hundredth
  && Bool.eqb (Float64.ltb x f_0) (Float64.ltb p f_50000)
  && Bool.eqb (Float64.is_zero x) (SFeqb p f_50000)
  && Bool.eqb (Float64.gtb x f_0) (Float64.gtb p f_50000).

(** ** Portfolios and states of the examples *)

(** A loss of 1500 on 10000. *)
Definition losing_portfolio : Portfolio :=
  {| total_value := Float64.of_Z 10000; positions := [];
     pnl := Float64.of_Z (-1500); trades := [] |}.

Definition nan_limit_config : TradingConfig :=
  {| symbol := "BTC/USD"; dca_amount := Float64.of_Z 100;
     dca_interval := 24; hedge_ratio := Float64.lit 3 10;
     risk_limit := S754_nan; take_profit := Float64.lit 15 100 |}.

(** The globals with another stored configuration. *)
Definition with_config (s : State) (c : TradingConfig) : State :=
  {| current_config := c; portfolio_data := portfolio_data s |}.

(** ** Not a number *)

Definition is_nan (x : float) : bool :=
  match x with S754_nan => true | _ => false end.

(** * Properties *)

(** ** Floats: comparison with zero, and the divisions of the module *)

Lemma gtb_zero_not_zero (x : float) :
  Float64.gtb x (Float64.of_Z 0) = true -> Float64.is_zero x = false.
Proof.
  destruct x as [sx | sx | | sx m e]; simpl; try reflexivity.
  unfold Float64.gtb, SFltb; simpl. discriminate.
Qed.

Lemma truediv_nonzero (x y : float) :
  Float64.is_zero y = false -> truediv x y = Ok (Float64.div x y).
Proof. unfold truediv. intros ->. reflexivity. Qed.

Lemma truediv_zero (x y : float) :
  Float64.is_zero y = true -> truediv x y = Err ZeroDivisionError.
Proof. unfold truediv. intros ->. reflexivity. Qed.

Lemma truediv_baseline (x : float) :
  truediv x (Float64.of_Z 50000) = Ok (Float64.div x (Float64.of_Z 50000)).
Proof. apply truediv_nonzero. reflexivity. Qed.

Lemma all_below_spec (P : Z -> bool) (n : nat) :
  all_below n P = true ->
  forall z, 0 <= z < Z.of_nat n -> P z = true.
Proof.
  induction n as [| k IH]; simpl; intros H z Hz.
  - lia.
  - apply andb_true_iff in H. destruct H as [Hk Hrest].
    destruct (Z.eq_dec z (Z.of_nat k)) as [-> | Hne].
    + exact Hk.
    + apply IH; [exact Hrest | lia].
Qed.

(** ** The mocked price *)

Lemma price_check_all : all_below (Z.to_nat 10000) price_check = true.
Proof. vm_compute. reflexivity. Qed.

Lemma mock_price_checked (h : Z) : price_check (h mod 10000) = true.
Proof.
  apply (all_below_spec price_check (Z.to_nat 10000) price_check_all).
  rewrite Z2Nat.id by lia.
  apply Z.mod_pos_bound. lia.
Qed.

Lemma eqb_struct_eq (x y : float) : Float64.eqb_struct x y = true -> x = y.
Proof.
  destruct x as [a | a | | a m e], y as [b | b | | b n f];
    simpl; try discriminate; try reflexivity.
  - intros H. apply Bool.eqb_prop in H. congruence.
  - intros H. apply Bool.eqb_prop in H. congruence.
  - rewrite !andb_true_iff. intros [[Hs Hm] He].
    apply Bool.eqb_prop in Hs. apply Pos.eqb_eq in Hm. apply Z.eqb_eq in He.
    congruence.
Qed.

Lemma mock_price_facts (h : Z) :
  let p := mock_price h in
  p = Float64.of_Z (45000 + h mod 10000)
  /\ Float64.leb (Float64.of_Z 45000) p = true
  /\ Float64.ltb p (Float64.of_Z 55000) = true
  /\ Float64.gtb p (Float64.of_Z 0) = true
  /\ Float64.valid p = true
  /\ invalid_price p = false.
Proof.
  pose proof (mock_price_checked h) as H.
  unfold price_check in H. cbv zeta in H.
  change (price_of_remainder (h mod 10000)) with (mock_price h) in H.
  rewrite !andb_true_iff in H.
  destruct H as [[[[[H1 H2] H3] H4] H5] H6].
  cbv zeta. repeat split; try assumption.
  - apply eqb_struct_eq, H1.
  - apply negb_true_iff, H6.
Qed.

Lemma mock_price_positive (h : Z) :
  Float64.gtb (mock_price h) (Float64.of_Z 0) = true.
Proof. apply (mock_price_facts h). Qed.

Lemma mock_price_not_zero (h : Z) : Float64.is_zero (mock_price h) = false.
Proof. apply gtb_zero_not_zero, mock_price_positive. Qed.

(** ** The engine never fails on a risk assessment *)

Lemma assess_risk_returns (portfolio : Portfolio) (config : TradingConfig) :
  TradingEngine.assess_risk portfolio config
  = Ok (risk_verdict (risk_percentage portfolio) (risk_limit config)).
Proof.
  unfold TradingEngine.assess_risk, risk_percentage, risk_verdict.
  destruct (Float64.gtb (total_value portfolio) (Float64.of_Z 0)) eqn:Hpos.
  - rewrite (truediv_nonzero _ _ (gtb_zero_not_zero _ Hpos)). reflexivity.
  - reflexivity.
Qed.

(** ** One cycle, seen as a whole *)

Lemma execute_cycle_raises
  (execution : TradeExecution) (price : float) (t1 t2 : string) (s : State) :
  Float64.is_zero price = true ->
  execute_cycle execution price t1 t2 s = Raise ZeroDivisionError s.
Proof.
  intros Hz.
  unfold execute_cycle, bind, lift, TradingEngine.calculate_dca_position.
  rewrite (truediv_zero _ _ Hz). reflexivity.
Qed.

Lemma execute_cycle_returns
  (execution : TradeExecution) (price : float) (t1 t2 : string) (s : State) :
  Float64.is_zero price = false ->
  exists dca,
    TradingEngine.calculate_dca_position (config execution) price t1 = Ok dca
    /\
    let hedge :=
      TradingEngine.calculate_hedge (config execution)
        (dca_amount (config execution)) t2 in
    let s' := committed s dca hedge price in
    execute_cycle execution price t1 t2 s
    = Return (cycle_response execution s' dca hedge price) s'.
Proof.
  intros Hnz.
  unfold execute_cycle, TradingEngine.calculate_dca_position.
  rewrite (truediv_nonzero _ _ Hnz).
  eexists. split; [reflexivity |].
  unfold bind, lift, result_bind, positions_append, trades_extend, set_pnl,
    with_portfolio, get_state, ret.
  cbv beta iota.
  rewrite truediv_baseline.
  cbv beta iota.
  rewrite assess_risk_returns.
  reflexivity.
Qed.

(** ** Position sizing *)

(** C1. For every configuration and every current price greater than zero,
    [calculate_dca_position] returns a trade intent whose type is DCA_BUY,
    whose size is [dca_amount / current_price], whose price is the current
    price and whose symbol is the symbol of the configuration.  (Nothing is
    asked of [dca_amount]: the sizing goes through for every amount.) *)
Theorem calculate_dca_position_intent
  (config : TradingConfig) (current_price : float) (now : string) :
  Float64.gtb current_price (Float64.of_Z 0) = true ->
  exists intent,
    TradingEngine.calculate_dca_position config current_price now = Ok intent
    /\ dict_get "type" intent = Some (VStr "DCA_BUY")
    /\ dict_get "size" intent
       = Some (VNum (Float (Float64.div (dca_amount config) current_price)))
    /\ dict_get "price" intent = Some (VNum (Float current_price))
    /\ dict_get "symbol" intent = Some (VStr (symbol config)).
Proof.
  intros Hpos.
  unfold TradingEngine.calculate_dca_position.
  rewrite (truediv_nonzero _ _ (gtb_zero_not_zero _ Hpos)).
  eexists. split; [reflexivity |].
  repeat split.
Qed.

(** The first end-to-end scenario: 100 at a price of 50000 buys 0.002. *)
Lemma calculate_dca_position_intent_witness :
  Float64.gtb (Float64.of_Z 50000) (Float64.of_Z 0) = true
  /\ exists intent,
       TradingEngine.calculate_dca_position default_config
         (Float64.of_Z 50000) "2024-01-01T00:00:00"
       = Ok intent
       /\ dict_get "type" intent = Some (VStr "DCA_BUY")
       /\ dict_get "size" intent
          = Some (VNum (Float (Float64.div (dca_amount default_config)
                                 (Float64.of_Z 50000))))
       /\ dict_get "price" intent = Some (VNum (Float (Float64.of_Z 50000)))
       /\ dict_get "symbol" intent = Some (VStr (symbol default_config)).
Proof.
  split.
  - reflexivity.
  - apply (calculate_dca_position_intent default_config (Float64.of_Z 50000)).
    reflexivity.
Defined.

Example dca_size_scenario :
  Float64.div (dca_amount default_config) (Float64.of_Z 50000)
  = Float64.lit 2 1000.
Proof. reflexivity. Qed.

(** ** Risk assessment *)

(** C2. For every portfolio and configuration, [assess_risk] returns a
    verdict whose current risk is [|pnl| / total_value] when the total
    value is greater than zero and 0 otherwise, whose within-limits flag is
    the truth value of [current_risk <= risk_limit], and whose
    recommendation is REDUCE_POSITION when [current_risk > risk_limit] and
    CONTINUE otherwise. *)
Theorem assess_risk_verdict (portfolio : Portfolio) (config : TradingConfig) :
  exists risk verdict,
    TradingEngine.assess_risk portfolio config = Ok verdict
    /\ risk = (if Float64.gtb (total_value portfolio) (Float64.of_Z 0)
               then Float (Float64.div (Float64.abs (pnl portfolio))
                             (total_value portfolio))
               else Int 0)
    /\ dict_get "current_risk" verdict = Some (VNum risk)
    /\ dict_get "within_limits" verdict
       = Some (VBool (Float64.leb (as_float risk) (risk_limit config)))
    /\ dict_get "recommendation" verdict
       = Some (VStr (if Float64.gtb (as_float risk) (risk_limit config)
                     then "REDUCE_POSITION" else "CONTINUE")).
Proof.
  exists (risk_percentage portfolio).
  exists (risk_verdict (risk_percentage portfolio) (risk_limit config)).
  split; [apply assess_risk_returns |].
  repeat split.
Qed.

(** A loss of 1500 on 10000 is a risk of 0.15, above the limit of 0.1. *)
Example assess_risk_loss_scenario :
  TradingEngine.assess_risk
    {| total_value := Float64.of_Z 10000; positions := [];
       pnl := Float64.of_Z (-1500); trades := [] |}
    default_config
  = Ok [ ("current_risk", VNum (Float (Float64.lit 15 100)));
         ("risk_limit", VNum (Float (Float64.lit 1 10)));
         ("within_limits", VBool false);
         ("recommendation", VStr "REDUCE_POSITION") ].
Proof. reflexivity. Qed.

(** A portfolio worth nothing has no risk, whatever its P&L. *)
Example assess_risk_degenerate_scenario :
  TradingEngine.assess_risk
    {| total_value := Float64.of_Z 0; positions := [];
       pnl := Float64.of_Z (-1500); trades := [] |}
    default_config
  = Ok [ ("current_risk", VNum (Int 0));
         ("risk_limit", VNum (Float (Float64.lit 1 10)));
         ("within_limits", VBool true);
         ("recommendation", VStr "CONTINUE") ].
Proof. reflexivity. Qed.

(** ** The endpoint [execute_trade] always goes through *)

Lemma execute_trade_returns
  (execution : TradeExecution) (clock : Clock) (s : State) :
  exists dca,
    TradingEngine.calculate_dca_position (config execution)
      (mock_price (hash_now clock)) (dca_now clock) = Ok dca
    /\
    let hedge :=
      TradingEngine.calculate_hedge (config execution)
        (dca_amount (config execution)) (hedge_now clock) in
    let s' := committed s dca hedge (mock_price (hash_now clock)) in
    execute_trade execution clock s
    = Return
        (cycle_response execution s' dca hedge (mock_price (hash_now clock)))
        s'.
Proof.
  unfold execute_trade.
  apply execute_cycle_returns, mock_price_not_zero.
Qed.

(** ** Hedge sizing *)

(** C3. For every configuration and every notional value (non-negative or
    not), [calculate_hedge] returns a trade intent whose type is HEDGE,
    whose size is [position_value * hedge_ratio] and whose symbol is the
    symbol of the configuration followed by [_HEDGE]; and every call of
    [execute_trade] returns, with as second trade, also appended last to
    the trade history, the hedge computed from [dca_amount]. *)
Theorem calculate_hedge_intent :
  (forall (config : TradingConfig) (position_value : float) (now : string),
      let intent :=
        TradingEngine.calculate_hedge config position_value now in
      dict_get "type" intent = Some (VStr "HEDGE")
      /\ dict_get "size" intent
         = Some (VNum (Float (Float64.mul position_value
                                (hedge_ratio config))))
      /\ dict_get "symbol" intent = Some (VStr (symbol config ++ "_HEDGE")))
  /\
  (forall (execution : TradeExecution) (clock : Clock) (s : State),
      exists response s' dca,
        execute_trade execution clock s = Return response s'
        /\ let hedge :=
             TradingEngine.calculate_hedge (config execution)
               (dca_amount (config execution)) (hedge_now clock) in
           response_trades response = [dca; hedge]
           /\ trades (portfolio_data s')
              = (trades (portfolio_data s) ++ [dca; hedge])%list).
Proof.
  split.
  - intros config position_value now. cbv zeta. repeat split.
  - intros execution clock s.
    destruct (execute_trade_returns execution clock s) as [dca [_ Hrun]].
    cbv zeta in Hrun.
    eexists. eexists. exists dca.
    split; [exact Hrun |].
    cbv zeta. split; reflexivity.
Qed.

(** The hedge of the default configuration: 30 for an amount of 100. *)
Example hedge_size_scenario :
  dict_get "size"
    (TradingEngine.calculate_hedge default_config
       (dca_amount default_config) "2024-01-01T00:00:00")
  = Some (VNum (Float (Float64.of_Z 30))).
Proof. reflexivity. Qed.

(** ** Profit and loss *)

(** C4. After every cycle of [execute_trade] that went through at price
    [p], the P&L is [total_value * ((p - 50000) / 50000) * 0.1]; it
    replaces the previous P&L: the same cycle run from any other previous
    P&L gives the same value. *)
Theorem execute_cycle_pnl
  (execution : TradeExecution) (p : float) (t1 t2 : string) (s : State)
  (response : ExecutionResponse) (s' : State) :
  execute_cycle execution p t1 t2 s = Return response s' ->
  response_current_price response = p
  /\ pnl (portfolio_data s')
     = Float64.mul
         (Float64.mul (total_value (portfolio_data s'))
            (Float64.div (Float64.sub p (Float64.of_Z 50000))
               (Float64.of_Z 50000)))
         (Float64.lit 1 10)
  /\ forall previous : float,
       pnl (portfolio_data
              (final_state
                 (execute_cycle execution p t1 t2 (with_pnl s previous))))
       = pnl (portfolio_data s').
Proof.
  intros Hrun.
  destruct (Float64.is_zero p) eqn:Hz.
  - rewrite (execute_cycle_raises _ _ _ _ _ Hz) in Hrun. discriminate.
  - destruct (execute_cycle_returns execution p t1 t2 s Hz) as [dca [_ Hs]].
    cbv zeta in Hs. rewrite Hs in Hrun.
    injection Hrun as <- <-.
    split; [reflexivity |].
    split; [reflexivity |].
    intros previous.
    destruct (execute_cycle_returns execution p t1 t2 (with_pnl s previous) Hz)
      as [dca' [_ Hs']].
    cbv zeta in Hs'. rewrite Hs'. reflexivity.
Qed.

(** The second end-to-end scenario: at 55000 the P&L of the seed portfolio
    is 100, from a previous P&L of 0 as from any other. *)
Lemma execute_cycle_pnl_witness :
  exists response s',
    execute_cycle {| config := default_config; simulate := true |}
      (Float64.of_Z 55000) "t1" "t2" initial_state
    = Return response s'
    /\ response_current_price response = Float64.of_Z 55000
    /\ pnl (portfolio_data s') = Float64.of_Z 100.
Proof.
  destruct (execute_cycle_returns
              {| config := default_config; simulate := true |}
              (Float64.of_Z 55000) "t1" "t2" initial_state eq_refl)
    as [dca [_ Hrun]].
  cbv zeta in Hrun.
  eexists. eexists.
  split; [exact Hrun |].
  destruct (execute_cycle_pnl _ _ _ _ _ _ _ Hrun) as [Hp [Hpnl _]].
  split; [exact Hp |].
  rewrite Hpnl. reflexivity.
Defined.

(** C5. Two consecutive calls of [execute_trade] that see the same price
    leave the same P&L (the second does not add to the first), and each
    call lengthens the trade history by exactly 2 entries and the positions
    by exactly 1 entry. *)
Theorem execute_trade_twice_same_price
  (e1 e2 : TradeExecution) (k1 k2 : Clock) (s : State) :
  mock_price (hash_now k1) = mock_price (hash_now k2) ->
  exists r1 s1 r2 s2,
    execute_trade e1 k1 s = Return r1 s1
    /\ execute_trade e2 k2 s1 = Return r2 s2
    /\ pnl (portfolio_data s2) = pnl (portfolio_data s1)
    /\ List.length (trades (portfolio_data s1))
       = (List.length (trades (portfolio_data s)) + 2)%nat
    /\ List.length (positions (portfolio_data s1))
       = (List.length (positions (portfolio_data s)) + 1)%nat
    /\ List.length (trades (portfolio_data s2))
       = (List.length (trades (portfolio_data s1)) + 2)%nat
    /\ List.length (positions (portfolio_data s2))
       = (List.length (positions (portfolio_data s1)) + 1)%nat.
Proof.
  intros Hsame.
  destruct (execute_trade_returns e1 k1 s) as [d1 [_ H1]].
  cbv zeta in H1.
  eexists. eexists.
  match type of H1 with _ = Return _ ?s1 =>
    destruct (execute_trade_returns e2 k2 s1) as [d2 [_ H2]]
  end.
  cbv zeta in H2.
  eexists. eexists.
  split; [exact H1 |].
  split; [exact H2 |].
  unfold committed; cbn [portfolio_data pnl trades positions total_value].
  rewrite !length_app. cbn [List.length].
  rewrite Hsame.
  repeat split.
Qed.

(** Two hashes that differ by a multiple of 10000 give the same price. *)
Lemma execute_trade_twice_same_price_witness :
  mock_price 12345 = mock_price 22345
  /\ exists r1 s1 r2 s2,
       execute_trade {| config := default_config; simulate := true |}
         {| hash_now := 12345; dca_now := "t1"; hedge_now := "t2" |}
         initial_state
       = Return r1 s1
       /\ execute_trade {| config := default_config; simulate := false |}
            {| hash_now := 22345; dca_now := "t3"; hedge_now := "t4" |} s1
          = Return r2 s2
       /\ pnl (portfolio_data s2) = pnl (portfolio_data s1)
       /\ List.length (trades (portfolio_data s1))
          = (List.length (trades (portfolio_data initial_state)) + 2)%nat
       /\ List.length (positions (portfolio_data s1))
          = (List.length (positions (portfolio_data initial_state)) + 1)%nat
       /\ List.length (trades (portfolio_data s2))
          = (List.length (trades (portfolio_data s1)) + 2)%nat
       /\ List.length (positions (portfolio_data s2))
          = (List.length (positions (portfolio_data s1)) + 1)%nat.
Proof.
  split.
  - reflexivity.
  - apply (execute_trade_twice_same_price
             {| config := default_config; simulate := true |}
             {| config := default_config; simulate := false |}
             {| hash_now := 12345; dca_now := "t1"; hedge_now := "t2" |}
             {| hash_now := 22345; dca_now := "t3"; hedge_now := "t4" |}
             initial_state).
    reflexivity.
Defined.

(** ** The cycle at prices that [execute_trade] never builds *)

(** The statements of lines 111 to 134 test no price.  [execute_trade]
    runs them at its own price only, which is never invalid; the lemmas
    of this section say what the same statements do at any other price. *)

(** At the price -1.0, which is non-positive, nothing is rejected: the
    engine sizes a position of -100.0, and the cycle goes through and
    writes the portfolio. *)
Lemma negative_price_not_rejected :
  invalid_price (Float64.of_Z (-1)) = true
  /\ (exists intent,
        TradingEngine.calculate_dca_position default_config
          (Float64.of_Z (-1)) "t1" = Ok intent
        /\ dict_get "size" intent
           = Some (VNum (Float (Float64.of_Z (-100)))))
  /\ ~ rejected_without_mutation
         (execute_cycle {| config := default_config; simulate := true |}
            (Float64.of_Z (-1)) "t1" "t2" initial_state)
         initial_state.
Proof.
  split; [reflexivity |].
  split.
  - eexists. split; reflexivity.
  - intros [e He]. vm_compute in He. discriminate He.
Qed.

(** Nor is a cycle run at an infinite price, or at a NaN. *)
Example non_finite_price_not_rejected :
  invalid_price (S754_infinity false) = true
  /\ invalid_price S754_nan = true
  /\ ~ rejected_without_mutation
         (execute_cycle {| config := default_config; simulate := true |}
            (S754_infinity false) "t1" "t2" initial_state)
         initial_state
  /\ ~ rejected_without_mutation
         (execute_cycle {| config := default_config; simulate := true |}
            S754_nan "t1" "t2" initial_state)
         initial_state.
Proof.
  repeat split; try reflexivity;
    intros [e He]; vm_compute in He; discriminate He.
Qed.

(** The cycle fails only at a price equal to zero: the sizing step then
    raises [ZeroDivisionError] before anything is written, and the globals
    are unchanged.  At every other price, negative, infinite or NaN
    included, the cycle goes through and commits in full: one intent
    appended to the positions, two to the trades, the P&L recomputed.  The
    price that [execute_trade] builds is never invalid. *)
Theorem execute_cycle_all_or_nothing :
  (forall (execution : TradeExecution) (p : float) (t1 t2 : string)
          (s : State),
      if Float64.is_zero p
      then execute_cycle execution p t1 t2 s = Raise ZeroDivisionError s
      else
        exists response dca,
          TradingEngine.calculate_dca_position (config execution) p t1
          = Ok dca
          /\ execute_cycle execution p t1 t2 s
             = Return response
                 {| current_config := current_config s;
                    portfolio_data :=
                      {| total_value := total_value (portfolio_data s);
                         positions := positions (portfolio_data s) ++ [dca];
                         pnl := pnl_at (total_value (portfolio_data s)) p;
                         trades :=
                           trades (portfolio_data s)
                           ++ [dca;
                               TradingEngine.calculate_hedge
                                 (config execution)
                                 (dca_amount (config execution)) t2] |} |})
  /\ (forall h : Z, invalid_price (mock_price h) = false).
Proof.
  split.
  - intros execution p t1 t2 s.
    destruct (Float64.is_zero p) eqn:Hz.
    + apply execute_cycle_raises, Hz.
    + destruct (execute_cycle_returns execution p t1 t2 s Hz)
        as [dca [Hdca Hrun]].
      cbv zeta in Hrun.
      eexists. exists dca.
      split; [exact Hdca | exact Hrun].
  - intros h. apply (mock_price_facts h).
Qed.

(** A price of zero, of either sign, is rejected with nothing written. *)
Example zero_price_rejected :
  execute_cycle {| config := default_config; simulate := true |}
    (S754_zero true) "t1" "t2" initial_state
  = Raise ZeroDivisionError initial_state.
Proof. reflexivity. Qed.

(** ** Configurations *)



(** C8. For every configuration [c], after [update_config c] the endpoint
    [get_config] returns exactly [c], whatever the configuration stored
    before: no field of the former configuration survives. *)
Theorem get_config_after_update_config (c : TradingConfig) (s : State) :
  exists message s',
    update_config c s = Return (message, c) s'
    /\ get_config s' = Return c s'
    /\ current_config s' = c.
Proof.
  eexists. eexists.
  split; [reflexivity |].
  split; reflexivity.
Qed.

(** ** What the endpoints write *)

Lemma handle_total_value (r : request) (s : State) :
  total_value (portfolio_data (handle r s)) = total_value (portfolio_data s).
Proof.
  destruct r as [| c | e k | |]; cbn [handle].
  - reflexivity.
  - reflexivity.
  - destruct (execute_trade_returns e k s) as [dca [_ Hrun]].
    cbv zeta in Hrun. rewrite Hrun. reflexivity.
  - reflexivity.
  - unfold get_risk_analysis, bind, get_state, lift.
    rewrite assess_risk_returns. reflexivity.
Qed.

Lemma run_total_value (rs : list request) (s : State) :
  total_value (portfolio_data (run rs s)) = total_value (portfolio_data s).
Proof.
  revert s. induction rs as [| r rs IH]; intros s.
  - reflexivity.
  - unfold run in *. cbn [fold_left].
    rewrite IH. apply handle_total_value.
Qed.

(** C9. No operation modifies the total value of the portfolio: after any
    sequence of requests it is still the seed value 10000.0; a call of
    [execute_trade] appends one intent to the positions and two to the
    trades and keeps the total value; and [get_config], [update_config],
    [get_portfolio] and [get_risk_analysis] leave the whole portfolio as it
    was. *)
Theorem total_value_never_modified :
  (forall rs : list request,
      total_value (portfolio_data (run rs initial_state))
      = Float64.of_Z 10000)
  /\ (forall (execution : TradeExecution) (clock : Clock) (s : State),
         exists response s' dca hedge,
           execute_trade execution clock s = Return response s'
           /\ total_value (portfolio_data s') = total_value (portfolio_data s)
           /\ positions (portfolio_data s')
              = (positions (portfolio_data s) ++ [dca])%list
           /\ trades (portfolio_data s')
              = (trades (portfolio_data s) ++ [dca; hedge])%list)
  /\ (forall s : State, exists c, get_config s = Return c s)
  /\ (forall (c : TradingConfig) (s : State),
         exists r s',
           update_config c s = Return r s'
           /\ portfolio_data s' = portfolio_data s)
  /\ (forall s : State, exists p, get_portfolio s = Return p s)
  /\ (forall s : State, exists v, get_risk_analysis s = Return v s).
Proof.
  split; [| split; [| split; [| split; [| split]]]].
  - intros rs. rewrite run_total_value. reflexivity.
  - intros execution clock s.
    destruct (execute_trade_returns execution clock s) as [dca [_ Hrun]].
    cbv zeta in Hrun.
    eexists. eexists. exists dca. eexists.
    split; [exact Hrun |].
    repeat split.
  - intros s. eexists. reflexivity.
  - intros c s. eexists. eexists. split; reflexivity.
  - intros s. eexists. reflexivity.
  - intros s. eexists.
    unfold get_risk_analysis, bind, get_state, lift.
    rewrite assess_risk_returns. reflexivity.
Qed.

(** ** The sizing step of [execute_trade] *)

(** C10. For every value of the hash, the mocked price of [execute_trade]
    is at least 45000 and less than 55000, hence greater than zero, and the
    division [dca_amount / current_price] of the sizing step does not
    divide by zero: it returns the quotient. *)
Theorem mock_price_in_range (h : Z) :
  Float64.leb (Float64.of_Z 45000) (mock_price h) = true
  /\ Float64.ltb (mock_price h) (Float64.of_Z 55000) = true
  /\ Float64.gtb (mock_price h) (Float64.of_Z 0) = true
  /\ Float64.is_zero (mock_price h) = false
  /\ forall config : TradingConfig,
       truediv (dca_amount config) (mock_price h)
       = Ok (Float64.div (dca_amount config) (mock_price h)).
Proof.
  destruct (mock_price_facts h) as [_ [Hlo [Hhi [Hpos _]]]].
  split; [exact Hlo |].
  split; [exact Hhi |].
  split; [exact Hpos |].
  split; [apply mock_price_not_zero |].
  intros config. apply truediv_nonzero, mock_price_not_zero.
Qed.

(** The offset is added without rounding: the price is a whole number. *)
Lemma mock_price_exact (h : Z) :
  mock_price h = Float64.of_Z (45000 + h mod 10000).
Proof. apply (mock_price_facts h). Qed.

(** * Further properties of the module *)

(** ** The order of floats *)

Lemma compare_cont_antisym_eq (m n : positive) :
  Pos.compare_cont Eq n m = CompOpp (Pos.compare_cont Eq m n).
Proof. symmetry. apply (Pos.compare_cont_antisym m n Eq). Qed.

Lemma SFcompare_antisym (x y : float) :
  SFcompare y x = option_map CompOpp (SFcompare x y).
Proof.
  destruct x as [a | a | | a m e], y as [b | b | | b n f]; simpl;
    try reflexivity;
    try (destruct a; reflexivity);
    try (destruct b; reflexivity);
    try (destruct a, b; reflexivity).
  destruct a, b; simpl; try reflexivity;
    rewrite (Z.compare_antisym e f);
    destruct (Z.compare e f); simpl; try reflexivity;
    rewrite (compare_cont_antisym_eq m n);
    destruct (Pos.compare_cont Eq m n); reflexivity.
Qed.

Lemma SFcompare_defined (x y : float) :
  is_nan x = false -> is_nan y = false -> SFcompare x y <> None.
Proof.
  destruct x as [a | a | | a m e], y as [b | b | | b n f]; simpl;
    intros Hx Hy; try discriminate; destruct a; discriminate.
Qed.

Lemma leb_negb_gtb (x y : float) :
  is_nan x = false -> is_nan y = false ->
  Float64.leb x y = negb (Float64.gtb x y).
Proof.
  intros Hx Hy.
  pose proof (SFcompare_defined x y Hx Hy) as Hdef.
  unfold Float64.leb, Float64.gtb, SFleb, SFltb.
  rewrite (SFcompare_antisym x y).
  destruct (SFcompare x y) as [[ | | ] |]; simpl; try reflexivity.
  contradiction.
Qed.

Lemma leb_trans (a b c : float) :
  Float64.leb a b = true -> Float64.leb b c = true -> Float64.leb a c = true.
Proof.
  unfold Float64.leb, SFleb.
  destruct a as [sa | sa | | sa ma ea], b as [sb | sb | | sb mb eb],
    c as [sc | sc | | sc mc ec]; simpl;
    try discriminate; try reflexivity;
    try (destruct sa; simpl; try discriminate; try reflexivity);
    try (destruct sb; simpl; try discriminate; try reflexivity);
    try (destruct sc; simpl; try discriminate; try reflexivity);
    change (Pos.compare_cont Eq) with Pos.compare;
    destruct (Z.compare_spec ea eb); try discriminate;
    destruct (Z.compare_spec eb ec); try discriminate;
    destruct (Z.compare_spec ea ec); try reflexivity; try lia;
    subst;
    destruct (Pos.compare_spec ma mb); simpl; try discriminate;
    destruct (Pos.compare_spec mb mc); simpl; try discriminate;
    destruct (Pos.compare_spec ma mc); simpl; try reflexivity; try lia.
Qed.

Lemma leb_not_gtb (x y : float) :
  Float64.leb x y = true -> Float64.gtb x y = false.
Proof.
  unfold Float64.leb, Float64.gtb, SFleb, SFltb.
  rewrite (SFcompare_antisym x y).
  destruct (SFcompare x y) as [[ | | ] |]; simpl; try reflexivity;
    discriminate.
Qed.

(** ** One request at a time *)

Lemma dca_of_returns (ek : TradeExecution * Clock) :
  TradingEngine.calculate_dca_position (config (fst ek))
    (mock_price (hash_now (snd ek))) (dca_now (snd ek))
  = Ok (dca_of ek).
Proof.
  unfold dca_of, TradingEngine.calculate_dca_position.
  rewrite (truediv_nonzero _ _ (mock_price_not_zero _)).
  reflexivity.
Qed.

Lemma handle_execute (e : TradeExecution) (k : Clock) (s : State) :
  handle (ExecuteTrade e k) s
  = committed s (dca_of (e, k)) (hedge_of (e, k)) (mock_price (hash_now k)).
Proof.
  cbn [handle].
  destruct (execute_trade_returns e k s) as [dca [Hdca Hrun]].
  cbv zeta in Hrun. rewrite Hrun. cbn [final_state].
  pose proof (dca_of_returns (e, k)) as Hof. cbn [fst snd] in Hof.
  rewrite Hdca in Hof. injection Hof as ->.
  reflexivity.
Qed.

Lemma handle_get_risk_analysis (s : State) : handle GetRiskAnalysis s = s.
Proof.
  cbn [handle]. unfold get_risk_analysis, bind, get_state, lift.
  rewrite assess_risk_returns. reflexivity.
Qed.

Lemma run_cons (r : request) (rs : list request) (s : State) :
  run (r :: rs) s = run rs (handle r s).
Proof. reflexivity. Qed.

(** ** The histories *)

Lemma run_positions (rs : list request) (s : State) :
  positions (portfolio_data (run rs s))
  = (positions (portfolio_data s) ++ map dca_of (executions rs))%list.
Proof.
  revert s. induction rs as [| r rs IH]; intros s.
  - cbn. rewrite app_nil_r. reflexivity.
  - rewrite run_cons, IH.
    destruct r as [| c | e k | |]; cbn [executions map];
      try reflexivity.
    + rewrite handle_execute. cbn [committed portfolio_data positions].
      rewrite <- app_assoc. reflexivity.
    + rewrite handle_get_risk_analysis. reflexivity.
Qed.

Lemma run_trades (rs : list request) (s : State) :
  trades (portfolio_data (run rs s))
  = (trades (portfolio_data s)
     ++ flat_map (fun ek => [dca_of ek; hedge_of ek]) (executions rs))%list.
Proof.
  revert s. induction rs as [| r rs IH]; intros s.
  - cbn. rewrite app_nil_r. reflexivity.
  - rewrite run_cons, IH.
    destruct r as [| c | e k | |]; cbn [executions flat_map];
      try reflexivity.
    + rewrite handle_execute. cbn [committed portfolio_data trades].
      rewrite <- app_assoc. reflexivity.
    + rewrite handle_get_risk_analysis. reflexivity.
Qed.

(** X1. After any session, from any state, the positions are the former
    positions followed by the DCA intent of each call of [execute_trade],
    in order, and the trades are the former trades followed by the DCA
    intent and the hedge intent of each call: the two histories only grow,
    at their end, and nothing else writes them. *)
Theorem histories_after_session (rs : list request) (s : State) :
  positions (portfolio_data (run rs s))
  = (positions (portfolio_data s) ++ map dca_of (executions rs))%list
  /\ trades (portfolio_data (run rs s))
     = (trades (portfolio_data s)
        ++ flat_map (fun ek => [dca_of ek; hedge_of ek]) (executions rs))%list
  /\ Forall
       (fun ek =>
          TradingEngine.calculate_dca_position (config (fst ek))
            (mock_price (hash_now (snd ek))) (dca_now (snd ek))
          = Ok (dca_of ek))
       (executions rs).
Proof.
  split; [apply run_positions |].
  split; [apply run_trades |].
  apply Forall_forall. intros ek _. apply dca_of_returns.
Qed.

(** ** The shape of the trade history *)

Lemma dca_of_items (ek : TradeExecution * Clock) :
  dca_of ek
  = [ ("type", VStr "DCA_BUY");
      ("symbol", VStr (symbol (config (fst ek))));
      ("size",
        VNum (Float (Float64.div (dca_amount (config (fst ek)))
                       (mock_price (hash_now (snd ek))))));
      ("price", VNum (Float (mock_price (hash_now (snd ek)))));
      ("timestamp", VStr (dca_now (snd ek))) ].
Proof.
  unfold dca_of, TradingEngine.calculate_dca_position.
  rewrite (truediv_nonzero _ _ (mock_price_not_zero _)).
  reflexivity.
Qed.

Lemma pairs_length (l : list (TradeExecution * Clock)) :
  List.length (flat_map (fun ek => [dca_of ek; hedge_of ek]) l)
  = (2 * List.length l)%nat.
Proof.
  induction l as [| ek l IH]; [reflexivity |].
  cbn [flat_map app List.length]. rewrite IH. lia.
Qed.

Lemma pairs_filter_dca (l : list (TradeExecution * Clock)) :
  filter (has_type "DCA_BUY")
    (flat_map (fun ek => [dca_of ek; hedge_of ek]) l)
  = map dca_of l.
Proof.
  induction l as [| ek l IH]; [reflexivity |].
  cbn [flat_map app filter map].
  rewrite IH, (dca_of_items ek). reflexivity.
Qed.

Lemma pairs_even (l : list (TradeExecution * Clock)) (i : nat) :
  nth_error (flat_map (fun ek => [dca_of ek; hedge_of ek]) l) (2 * i)
  = nth_error (map dca_of l) i.
Proof.
  revert i. induction l as [| ek l IH]; intros i.
  - destruct i; reflexivity.
  - destruct i as [| i]; [reflexivity |].
    replace (2 * S i)%nat with (S (S (2 * i))) by lia.
    cbn [flat_map app nth_error map]. apply IH.
Qed.

Lemma pairs_odd (l : list (TradeExecution * Clock)) (i : nat) :
  nth_error (flat_map (fun ek => [dca_of ek; hedge_of ek]) l) (2 * i + 1)
  = nth_error (map hedge_of l) i.
Proof.
  revert i. induction l as [| ek l IH]; intros i.
  - destruct i; reflexivity.
  - destruct i as [| i]; [reflexivity |].
    replace (2 * S i + 1)%nat with (S (S (2 * i + 1))) by lia.
    cbn [flat_map app nth_error map]. apply IH.
Qed.

(** X2. In every state reached from the initial one, the trade history is
    made of pairs: there are twice as many trades as positions, one
    position per call of [execute_trade]; the trade of even rank [2 i] is
    the position of rank [i] and the trade of odd rank [2 i + 1] is the
    hedge of the call of rank [i]; the trades of type DCA_BUY are exactly
    the positions, every position carries a price of at least 45000 and
    less than 55000, and every other trade is a HEDGE, which has no price
    item. *)
Theorem trade_history_shape (rs : list request) :
  let p := portfolio_data (run rs initial_state) in
  List.length (positions p) = List.length (executions rs)
  /\ List.length (trades p) = (2 * List.length (positions p))%nat
  /\ (forall i : nat,
        nth_error (trades p) (2 * i) = nth_error (positions p) i)
  /\ (forall i : nat,
        nth_error (trades p) (2 * i + 1)
        = nth_error (map hedge_of (executions rs)) i)
  /\ filter (has_type "DCA_BUY") (trades p) = positions p
  /\ Forall
       (fun d =>
          has_type "DCA_BUY" d = true
          /\ exists price,
               dict_get "price" d = Some (VNum (Float price))
               /\ Float64.leb (Float64.of_Z 45000) price = true
               /\ Float64.ltb price (Float64.of_Z 55000) = true)
       (positions p)
  /\ Forall
       (fun d =>
          has_type "HEDGE" d = true /\ dict_get "price" d = None)
       (filter (fun d => negb (has_type "DCA_BUY" d)) (trades p)).
Proof.
  cbv zeta.
  rewrite run_positions, run_trades.
  cbn [initial_state portfolio_data positions trades app].
  split; [apply length_map |].
  split; [rewrite pairs_length, length_map; reflexivity |].
  split; [apply pairs_even |].
  split; [apply pairs_odd |].
  split; [apply pairs_filter_dca |].
  split.
  - apply Forall_forall. intros d Hd.
    apply in_map_iff in Hd. destruct Hd as [ek [<- _]].
    rewrite (dca_of_items ek).
    split; [reflexivity |].
    eexists. split; [reflexivity |].
    destruct (mock_price_facts (hash_now (snd ek)))
      as [_ [Hlo [Hhi _]]].
    split; assumption.
  - induction (executions rs) as [| ek l IH]; [constructor |].
    cbn [flat_map app filter].
    rewrite (dca_of_items ek).
    cbn. constructor; [split; reflexivity | exact IH].
Qed.

(** ** What a session leaves behind *)

Lemma run_app (rs1 rs2 : list request) (s : State) :
  run (rs1 ++ rs2) s = run rs2 (run rs1 s).
Proof. unfold run. apply fold_left_app. Qed.

Lemma run_without_execution (rs : list request) (s : State) :
  executions rs = [] -> portfolio_data (run rs s) = portfolio_data s.
Proof.
  revert s. induction rs as [| r rs IH]; intros s Hnone; [reflexivity |].
  rewrite run_cons.
  destruct r as [| c | e k | |]; cbn [executions] in Hnone;
    try discriminate; rewrite (IH _ Hnone); try reflexivity.
  rewrite handle_get_risk_analysis. reflexivity.
Qed.

Lemma handle_current_config (r : request) (s : State) :
  current_config (handle r s)
  = match r with UpdateConfig c => c | _ => current_config s end.
Proof.
  destruct r as [| c | e k | |]; try reflexivity.
  - rewrite handle_execute. reflexivity.
  - rewrite handle_get_risk_analysis. reflexivity.
Qed.

Lemma run_without_update (rs : list request) (s : State) :
  updates rs = [] -> current_config (run rs s) = current_config s.
Proof.
  revert s. induction rs as [| r rs IH]; intros s Hnone; [reflexivity |].
  rewrite run_cons.
  destruct r as [| c | e k | |]; cbn [updates] in Hnone;
    try discriminate; rewrite (IH _ Hnone);
    rewrite handle_current_config; reflexivity.
Qed.

(** X3. The P&L left by a session is that of its last call of
    [execute_trade] alone: whatever requests came before that call, and
    whatever reads and configuration updates came after it, the P&L is
    [total_value * ((p - 50000) / 50000) * 0.1] for the price [p] of that
    call; and a session without such a call leaves the P&L as it was. *)
Theorem pnl_after_session (after : list request) :
  executions after = [] ->
  (forall s : State,
      pnl (portfolio_data (run after s)) = pnl (portfolio_data s))
  /\ (forall (before : list request) (e : TradeExecution) (k : Clock)
             (s : State),
         pnl (portfolio_data (run (before ++ ExecuteTrade e k :: after) s))
         = pnl_at (total_value (portfolio_data s))
             (mock_price (hash_now k))).
Proof.
  intros Hnone. split.
  - intros s. rewrite (run_without_execution _ _ Hnone). reflexivity.
  - intros before e k s.
    rewrite run_app, run_cons, (run_without_execution _ _ Hnone).
    rewrite handle_execute. cbn [committed portfolio_data pnl].
    rewrite run_total_value. reflexivity.
Qed.

(** Two calls, at the prices 47345 and 54999, then two reads: the P&L is
    that of the second call. *)
Lemma pnl_after_session_witness :
  executions [GetPortfolio; GetRiskAnalysis] = []
  /\ pnl (portfolio_data
            (run ([ExecuteTrade {| config := default_config;
                                   simulate := true |}
                     {| hash_now := 12345; dca_now := "t1";
                        hedge_now := "t2" |}]
                  ++ ExecuteTrade {| config := default_config;
                                     simulate := true |}
                       {| hash_now := -1; dca_now := "t3";
                          hedge_now := "t4" |}
                  :: [GetPortfolio; GetRiskAnalysis])
               initial_state))
     = pnl_at (Float64.of_Z 10000) (Float64.of_Z 54999).
Proof.
  split; [reflexivity |].
  destruct (pnl_after_session [GetPortfolio; GetRiskAnalysis] eq_refl)
    as [_ Hlast].
  rewrite Hlast. reflexivity.
Defined.

(** X4. The stored configuration after a session is the one given to its
    last call of [update_config], whatever came before it and whatever
    reads and calls of [execute_trade] came after it (the configuration
    that [execute_trade] is given is never stored); a session without such
    a call leaves the stored configuration as it was. *)
Theorem config_after_session (after : list request) :
  updates after = [] ->
  (forall s : State, current_config (run after s) = current_config s)
  /\ (forall (before : list request) (c : TradingConfig) (s : State),
         current_config (run (before ++ UpdateConfig c :: after) s) = c).
Proof.
  intros Hnone. split.
  - intros s. apply run_without_update, Hnone.
  - intros before c s.
    rewrite run_app, run_cons, (run_without_update _ _ Hnone).
    reflexivity.
Qed.

(** The configuration with a hedge ratio of 2, given to [execute_trade]
    after an update to the default configuration, is not stored. *)
Lemma config_after_session_witness :
  updates [ExecuteTrade {| config := oversized_hedge_config;
                           simulate := false |}
             {| hash_now := 7; dca_now := "t1"; hedge_now := "t2" |};
           GetConfig] = []
  /\ current_config
       (run ([UpdateConfig oversized_hedge_config]
             ++ UpdateConfig default_config
             :: [ExecuteTrade {| config := oversized_hedge_config;
                                 simulate := false |}
                   {| hash_now := 7; dca_now := "t1"; hedge_now := "t2" |};
                 GetConfig])
          initial_state)
     = default_config.
Proof.
  split; [reflexivity |].
  apply (config_after_session
           [ExecuteTrade {| config := oversized_hedge_config;
                            simulate := false |}
              {| hash_now := 7; dca_now := "t1"; hedge_now := "t2" |};
            GetConfig] eq_refl).
Defined.

(** ** Verdicts and NaN *)

Lemma compare_nan_r (x : float) : SFcompare x S754_nan = None.
Proof. destruct x; reflexivity. Qed.

(** X5. When neither the current risk nor the risk limit is a NaN, the
    two halves of the verdict of [assess_risk] agree: the recommendation
    is CONTINUE exactly when the portfolio is within limits, and
    REDUCE_POSITION otherwise. *)
Theorem verdict_halves_agree
  (portfolio : Portfolio) (config : TradingConfig)
  (verdict : dict) (risk : number) :
  TradingEngine.assess_risk portfolio config = Ok verdict ->
  dict_get "current_risk" verdict = Some (VNum risk) ->
  is_nan (as_float risk) = false ->
  is_nan (risk_limit config) = false ->
  exists within : bool,
    dict_get "within_limits" verdict = Some (VBool within)
    /\ dict_get "recommendation" verdict
       = Some (VStr (if within then "CONTINUE" else "REDUCE_POSITION")).
Proof.
  intros Hrun Hrisk Hr Hl.
  rewrite assess_risk_returns in Hrun. injection Hrun as <-.
  cbn in Hrisk. injection Hrisk as <-.
  exists (Float64.leb (as_float (risk_percentage portfolio))
            (risk_limit config)).
  split; [reflexivity |].
  cbn. rewrite (leb_negb_gtb _ _ Hr Hl).
  destruct (Float64.gtb (as_float (risk_percentage portfolio))
              (risk_limit config)); reflexivity.
Qed.

Lemma verdict_halves_agree_witness :
  exists verdict risk,
    TradingEngine.assess_risk losing_portfolio default_config = Ok verdict
    /\ dict_get "current_risk" verdict = Some (VNum risk)
    /\ is_nan (as_float risk) = false
    /\ is_nan (risk_limit default_config) = false
    /\ exists within : bool,
         dict_get "within_limits" verdict = Some (VBool within)
         /\ dict_get "recommendation" verdict
            = Some (VStr (if within then "CONTINUE"
                          else "REDUCE_POSITION")).
Proof.
  exists (risk_verdict (risk_percentage losing_portfolio)
            (risk_limit default_config)).
  exists (risk_percentage losing_portfolio).
  split; [reflexivity |].
  split; [reflexivity |].
  split; [reflexivity |].
  split; [reflexivity |].
  apply (verdict_halves_agree losing_portfolio default_config
           (risk_verdict (risk_percentage losing_portfolio)
              (risk_limit default_config))
           (risk_percentage losing_portfolio));
    reflexivity.
Defined.

(** X6. With a risk limit that is a NaN, or with a P&L that is a NaN on a
    portfolio of positive total value, [assess_risk] does not fail and
    returns a verdict whose halves disagree: the portfolio is reported as
    not within limits, and the recommendation is CONTINUE. *)
Theorem verdict_with_nan (portfolio : Portfolio) (config : TradingConfig) :
  is_nan (risk_limit config)
  || (Float64.gtb (total_value portfolio) (Float64.of_Z 0)
      && is_nan (pnl portfolio)) = true ->
  exists verdict,
    TradingEngine.assess_risk portfolio config = Ok verdict
    /\ dict_get "within_limits" verdict = Some (VBool false)
    /\ dict_get "recommendation" verdict = Some (VStr "CONTINUE").
Proof.
  intros Hnan.
  rewrite assess_risk_returns. eexists. split; [reflexivity |].
  unfold risk_verdict, Float64.leb, Float64.gtb, SFleb, SFltb. cbn.
  apply orb_true_iff in Hnan. destruct Hnan as [Hl | Hp].
  - destruct (risk_limit config); try discriminate Hl.
    rewrite compare_nan_r. split; reflexivity.
  - apply andb_true_iff in Hp. destruct Hp as [Hpos Hp].
    unfold risk_percentage. rewrite Hpos.
    destruct (pnl portfolio); try discriminate Hp.
    cbn. rewrite compare_nan_r. split; reflexivity.
Qed.

Lemma verdict_with_nan_witness :
  is_nan (risk_limit nan_limit_config)
  || (Float64.gtb (total_value losing_portfolio) (Float64.of_Z 0)
      && is_nan (pnl losing_portfolio)) = true
  /\ exists verdict,
       TradingEngine.assess_risk losing_portfolio nan_limit_config
       = Ok verdict
       /\ dict_get "within_limits" verdict = Some (VBool false)
       /\ dict_get "recommendation" verdict = Some (VStr "CONTINUE").
Proof.
  split; [reflexivity |].
  apply (verdict_with_nan losing_portfolio nan_limit_config).
  reflexivity.
Defined.

(** ** How far the P&L can go *)

Lemma cycle_check_all : all_below (Z.to_nat 10000) cycle_check = true.
Proof. vm_compute. reflexivity. Qed.

Lemma cycle_facts (h : Z) :
  let x := pnl_at (Float64.of_Z 10000) (mock_price h) in
  float_to_Z (mock_price h) = Some (45000 + h mod 10000)
  /\ Float64.leb (Float64.abs x) (Float64.of_Z 100) = true
  /\ Float64.leb (Float64.div (Float64.abs x) (Float64.of_Z 10000))
       (Float64.lit 1 100) = true
  /\ Float64.ltb x (Float64.of_Z 0)
     = Float64.ltb (mock_price h) (Float64.of_Z 50000)
  /\ Float64.is_zero x = SFeqb (mock_price h) (Float64.of_Z 50000)
  /\ Float64.gtb x (Float64.of_Z 0)
     = Float64.gtb (mock_price h) (Float64.of_Z 50000).
Proof.
  assert (H : cycle_check (h mod 10000) = true).
  { apply (all_below_spec cycle_check (Z.to_nat 10000) cycle_check_all).
    rewrite Z2Nat.id by lia. apply Z.mod_pos_bound. lia. }
  unfold cycle_check in H. cbv zeta in H.
  change f_0 with (Float64.of_Z 0) in H.
  change f_100 with (Float64.of_Z 100) in H.
  change f_10000 with (Float64.of_Z 10000) in H.
  change f_50000 with (Float64.of_Z 50000) in H.
  change f_tenth with (Float64.lit 1 10) in H.
  change f_hundredth with (Float64.lit 1 100) in H.
  fold (mock_price h) in H.
  fold (pnl_at (Float64.of_Z 10000) (mock_price h)) in H.
  rewrite !andb_true_iff in H.
  destruct H as [[[[[H0 H1] H2] H3] H4] H5].
  cbv zeta.
  split.
  { destruct (float_to_Z (mock_price h)) as [z |]; [| discriminate H0].
    apply Z.eqb_eq in H0. rewrite H0. reflexivity. }
  split; [exact H1 |].
  split; [exact H2 |].
  split; [apply Bool.eqb_prop, H3 |].
  split; [apply Bool.eqb_prop, H4 |].
  apply Bool.eqb_prop, H5.
Qed.

Lemma run_pnl_cases (rs : list request) (s : State) :
  pnl (portfolio_data (run rs s)) = pnl (portfolio_data s)
  \/ exists h,
       pnl (portfolio_data (run rs s))
       = pnl_at (total_value (portfolio_data s)) (mock_price h).
Proof.
  revert s. induction rs as [| r rs IH]; intros s; [left; reflexivity |].
  rewrite run_cons.
  destruct (IH (handle r s)) as [Hsame | [h Hh]].
  - rewrite Hsame.
    destruct r as [| c | e k | |]; try (left; reflexivity).
    + right. exists (hash_now k). rewrite handle_execute. reflexivity.
    + left. rewrite handle_get_risk_analysis. reflexivity.
  - right. exists h. rewrite Hh, handle_total_value. reflexivity.
Qed.

Lemma reachable_pnl_bounds (rs : list request) :
  let x := pnl (portfolio_data (run rs initial_state)) in
  Float64.leb (Float64.abs x) (Float64.of_Z 100) = true
  /\ Float64.leb (Float64.div (Float64.abs x) (Float64.of_Z 10000))
       (Float64.lit 1 100) = true.
Proof.
  cbv zeta.
  destruct (run_pnl_cases rs initial_state) as [-> | [h ->]].
  - split; reflexivity.
  - destruct (cycle_facts h) as [_ [H1 [H2 _]]]. split; assumption.
Qed.

(** X7. In every state reached from the initial one, the P&L is at most
    100 in magnitude and the current risk is at most 0.01; so, whatever
    the history, [assess_risk] reports the portfolio as within limits and
    recommends CONTINUE for every configuration whose risk limit is at
    least 0.01: REDUCE_POSITION cannot be reached with such a limit. *)
Theorem risk_never_above_one_percent
  (rs : list request) (config : TradingConfig) :
  Float64.leb (Float64.lit 1 100) (risk_limit config) = true ->
  let p := portfolio_data (run rs initial_state) in
  Float64.leb (Float64.abs (pnl p)) (Float64.of_Z 100) = true
  /\ exists verdict risk,
       TradingEngine.assess_risk p config = Ok verdict
       /\ dict_get "current_risk" verdict = Some (VNum (Float risk))
       /\ Float64.leb risk (Float64.lit 1 100) = true
       /\ dict_get "within_limits" verdict = Some (VBool true)
       /\ dict_get "recommendation" verdict = Some (VStr "CONTINUE").
Proof.
  intros Hlimit. cbv zeta.
  destruct (reachable_pnl_bounds rs) as [Hpnl Hrisk]. cbv zeta in Hpnl, Hrisk.
  split; [exact Hpnl |].
  rewrite assess_risk_returns.
  exists (risk_verdict
            (risk_percentage (portfolio_data (run rs initial_state)))
            (risk_limit config)).
  exists (Float64.div
            (Float64.abs (pnl (portfolio_data (run rs initial_state))))
            (Float64.of_Z 10000)).
  assert (Hrp : risk_percentage (portfolio_data (run rs initial_state))
                = Float (Float64.div
                           (Float64.abs
                              (pnl (portfolio_data (run rs initial_state))))
                           (Float64.of_Z 10000))).
  { unfold risk_percentage. rewrite run_total_value. reflexivity. }
  rewrite Hrp.
  pose proof (leb_trans _ _ _ Hrisk Hlimit) as Hle.
  split; [reflexivity |].
  split; [reflexivity |].
  split; [exact Hrisk |].
  unfold risk_verdict. cbn [dict_get String.eqb Ascii.eqb Bool.eqb as_float].
  rewrite Hle, (leb_not_gtb _ _ Hle).
  split; reflexivity.
Qed.

(** With the default limit of 0.1, after two calls and an update. *)
Lemma risk_never_above_one_percent_witness :
  Float64.leb (Float64.lit 1 100) (risk_limit default_config) = true
  /\ exists verdict,
       TradingEngine.assess_risk
         (portfolio_data
            (run [ExecuteTrade {| config := default_config;
                                  simulate := true |}
                    {| hash_now := 0; dca_now := "t1"; hedge_now := "t2" |};
                  UpdateConfig oversized_hedge_config;
                  ExecuteTrade {| config := oversized_hedge_config;
                                  simulate := false |}
                    {| hash_now := 9999; dca_now := "t3";
                       hedge_now := "t4" |}]
               initial_state))
         default_config
       = Ok verdict
       /\ dict_get "within_limits" verdict = Some (VBool true)
       /\ dict_get "recommendation" verdict = Some (VStr "CONTINUE").
Proof.
  split; [reflexivity |].
  destruct (risk_never_above_one_percent
              [ExecuteTrade {| config := default_config; simulate := true |}
                 {| hash_now := 0; dca_now := "t1"; hedge_now := "t2" |};
               UpdateConfig oversized_hedge_config;
               ExecuteTrade {| config := oversized_hedge_config;
                               simulate := false |}
                 {| hash_now := 9999; dca_now := "t3"; hedge_now := "t4" |}]
              default_config eq_refl)
    as [_ [verdict [risk [Hrun [_ [_ [Hw Hr]]]]]]].
  exists verdict. split; [exact Hrun |]. split; [exact Hw | exact Hr].
Defined.

(** X8. After a call of [execute_trade], in a state reached from the
    initial one, the P&L is negative, zero or positive exactly when the
    price of the call is below, equal to or above the baseline of
    50000. *)
Theorem pnl_sign_follows_price
  (rs : list request) (e : TradeExecution) (k : Clock) :
  let s := run rs initial_state in
  exists response s',
    execute_trade e k s = Return response s'
    /\ let x := pnl (portfolio_data s') in
       let p := response_current_price response in
       Float64.ltb x (Float64.of_Z 0) = Float64.ltb p (Float64.of_Z 50000)
       /\ Float64.is_zero x = SFeqb p (Float64.of_Z 50000)
       /\ Float64.gtb x (Float64.of_Z 0)
          = Float64.gtb p (Float64.of_Z 50000).
Proof.
  cbv zeta.
  destruct (execute_trade_returns e k (run rs initial_state))
    as [dca [_ Hrun]].
  cbv zeta in Hrun.
  eexists. eexists. split; [exact Hrun |].
  cbn [committed portfolio_data pnl cycle_response response_current_price].
  rewrite run_total_value.
  destruct (cycle_facts (hash_now k)) as [_ [_ [_ [H3 [H4 H5]]]]].
  cbv zeta in H3, H4, H5.
  split; [exact H3 |]. split; [exact H4 | exact H5].
Qed.

(** ** What [execute_trade] reads *)

(** X9. A call of [execute_trade] never reads the stored configuration,
    and its [simulate] flag changes nothing but the label of the
    response: run with either value of the flag, and from globals holding
    any other stored configuration, the call returns the same trades,
    portfolio, risk assessment and price, and leaves the same portfolio;
    the label is SUCCESS when the flag is set and EXECUTED when it is
    not. *)
Theorem execute_trade_reads_only_its_request
  (c stored : TradingConfig) (k : Clock) (s : State) :
  exists r1 s1 r2 s2,
    execute_trade {| config := c; simulate := true |} k s = Return r1 s1
    /\ execute_trade {| config := c; simulate := false |} k
         (with_config s stored)
       = Return r2 s2
    /\ execution_result r1 = "SUCCESS"
    /\ execution_result r2 = "EXECUTED"
    /\ response_trades r1 = response_trades r2
    /\ response_portfolio r1 = response_portfolio r2
    /\ risk_assessment r1 = risk_assessment r2
    /\ response_current_price r1 = response_current_price r2
    /\ portfolio_data s1 = portfolio_data s2
    /\ current_config s1 = current_config s
    /\ current_config s2 = stored.
Proof.
  destruct (execute_trade_returns {| config := c; simulate := true |} k s)
    as [d1 [Hd1 H1]].
  destruct (execute_trade_returns {| config := c; simulate := false |} k
              (with_config s stored))
    as [d2 [Hd2 H2]].
  cbv zeta in H1, H2. cbn [config] in Hd1, Hd2.
  rewrite Hd1 in Hd2. injection Hd2 as <-.
  eexists. eexists. eexists. eexists.
  split; [exact H1 |].
  split; [exact H2 |].
  repeat split.
Qed.

(** ** Reads after a call *)

(** X10. After a call of [execute_trade], [get_portfolio] returns the
    portfolio that the call returned, and [get_risk_analysis] returns the
    risk assessment that the call returned, provided the stored
    configuration has the risk limit of the configuration of the call. *)
Theorem reads_after_execute_trade
  (e : TradeExecution) (k : Clock) (s : State) :
  risk_limit (current_config s) = risk_limit (config e) ->
  exists response s',
    execute_trade e k s = Return response s'
    /\ get_portfolio s' = Return (response_portfolio response) s'
    /\ get_risk_analysis s' = Return (risk_assessment response) s'.
Proof.
  intros Hlimit.
  destruct (execute_trade_returns e k s) as [dca [_ Hrun]].
  cbv zeta in Hrun.
  eexists. eexists. split; [exact Hrun |].
  split; [reflexivity |].
  unfold get_risk_analysis, bind, get_state, lift.
  rewrite assess_risk_returns.
  cbn [committed current_config cycle_response risk_assessment].
  rewrite Hlimit. reflexivity.
Qed.

Lemma reads_after_execute_trade_witness :
  risk_limit (current_config initial_state) = risk_limit default_config
  /\ exists response s',
       execute_trade {| config := default_config; simulate := true |}
         {| hash_now := 12345; dca_now := "t1"; hedge_now := "t2" |}
         initial_state
       = Return response s'
       /\ get_portfolio s' = Return (response_portfolio response) s'
       /\ get_risk_analysis s' = Return (risk_assessment response) s'.
Proof.
  split; [reflexivity |].
  apply (reads_after_execute_trade
           {| config := default_config; simulate := true |}
           {| hash_now := 12345; dca_now := "t1"; hedge_now := "t2" |}
           initial_state).
  reflexivity.
Defined.

(** With another stored risk limit the two assessments differ: the call
    judges by the limit it was given (here a limit of 0, exceeded at the
    price 45000), the later read by the stored one. *)
Example risk_analysis_by_stored_limit :
  let e := {| config :=
                {| symbol := "BTC/USD"; dca_amount := Float64.of_Z 100;
                   dca_interval := 24; hedge_ratio := Float64.lit 3 10;
                   risk_limit := Float64.of_Z 0;
                   take_profit := Float64.lit 15 100 |};
              simulate := true |} in
  let k := {| hash_now := 0; dca_now := "t1"; hedge_now := "t2" |} in
  exists response s' analysis,
    execute_trade e k initial_state = Return response s'
    /\ dict_get "recommendation" (risk_assessment response)
       = Some (VStr "REDUCE_POSITION")
    /\ get_risk_analysis s' = Return analysis s'
    /\ dict_get "recommendation" analysis = Some (VStr "CONTINUE").
Proof.
  cbv zeta. eexists. eexists. eexists.
  split; [vm_compute; reflexivity |].
  split; [reflexivity |].
  split; [vm_compute; reflexivity |].
  reflexivity.
Qed.

(** ** The prices *)

Lemma mock_price_to_Z (h : Z) :
  float_to_Z (mock_price h) = Some (45000 + h mod 10000).
Proof. apply (cycle_facts h). Qed.

(** X11. The mocked price is the whole number [45000 + hash mod 10000],
    held exactly by the float; so two calls see the same price exactly
    when their hashes have the same remainder modulo 10000, and there are
    10000 possible prices. *)
Theorem mock_price_whole_number (h1 h2 : Z) :
  mock_price h1 = Float64.of_Z (45000 + h1 mod 10000)
  /\ float_to_Z (mock_price h1) = Some (45000 + h1 mod 10000)
  /\ (mock_price h1 = mock_price h2 <-> h1 mod 10000 = h2 mod 10000).
Proof.
  split; [apply (mock_price_facts h1) |].
  split; [apply mock_price_to_Z |].
  split.
  - intros Heq.
    pose proof (mock_price_to_Z h1) as H1.
    pose proof (mock_price_to_Z h2) as H2.
    rewrite Heq, H2 in H1.
    pose proof (f_equal (fun o => match o with Some z => z | None => 0 end)
                  H1) as H.
    cbv beta iota in H.
    apply Z.add_reg_l in H. symmetry. exact H.
  - intros Heq. unfold mock_price. rewrite Heq. reflexivity.
Qed.
